(** * The st2kv lookup plugin (lookup_plugins/st2kv.py)

    A shallow embedding of [LookupModule.run] and
    [LookupModule.parse_scope_key], and the properties of the lookup that
    the specification states about them.

    Python objects are modelled by the small sum types below, the keyword
    arguments and [os.environ] by finite maps, exceptions by a result type,
    and the [requests] library by an interface the plugin is parametrised
    over.  The process state (the remote side, the requests issued so far,
    urllib3's warning switch) is threaded explicitly. *)

From stdpp Require Import gmap strings list pretty.
From Stdlib Require Import Ascii ZArith Lia.

Local Open Scope Z_scope.

(** ** Python values *)

(** The values the documented options of the lookup take: [None], a [bool],
    an [int] or a [str]. *)
Inductive pyval : Type :=
| PNone
| PBool (b : bool)
| PInt (n : Z)
| PStr (s : string).

(** Truth value of an object, as [if x:] and [not x] test it. *)
Definition truthy (v : pyval) : bool :=
  match v with
  | PNone => false
  | PBool b => b
  | PInt n => negb (n =? 0)
  | PStr s => negb (String.eqb s EmptyString)
  end.

(** [str(v)], which is also what ['{}'.format(v)] and ['%s' % v] insert. *)
Definition str (v : pyval) : string :=
  match v with
  | PNone => "None"
  | PBool true => "True"
  | PBool false => "False"
  | PInt n => pretty n
  | PStr s => s
  end.

(** A lookup term: a [str], or [None]. *)
Definition term : Type := option string.

Definition term_val (t : term) : pyval :=
  match t with
  | Some s => PStr s
  | None => PNone
  end.

(** Decoded JSON, as [response.json()] returns it.  An object keeps its
    members in document order; [getitem] below reads the last binding of a
    key, which is the one a Python [dict] built from the document holds. *)
#[warnings="-register-all"]
Inductive json : Type :=
| JNull
| JBool (b : bool)
| JInt (n : Z)
| JFloat (literal : string)
| JString (s : string)
| JArray (items : list json)
| JObject (members : list (string * json)).

(** ** Exceptions *)

Inductive exn : Type :=
| AnsibleError (message : string)
| KeyError (key : string)
| TypeError (text : string)
| LibraryError (cls : string) (text : string).

Inductive result (A : Type) : Type :=
| Ok (a : A)
| Raise (e : exn).
Arguments Ok {A} a.
Arguments Raise {A} e.

(** [repr] of a key that holds no quote and no escape, as in [KeyError]'s
    text. *)
Definition repr_plain (s : string) : string := "'" +:+ s +:+ "'".

(** [str(e)] of a caught exception. *)
Definition str_exn (e : exn) : string :=
  match e with
  | AnsibleError message => message
  | KeyError key => repr_plain key
  | TypeError text => text
  | LibraryError _ text => text
  end.

(** ** Strings *)

(** [s.split(sep)] for a separator of one character. *)
Fixpoint split (sep : ascii) (s : string) : list string :=
  match s with
  | EmptyString => [EmptyString]
  | String c rest =>
      if decide (c = sep) then EmptyString :: split sep rest
      else match split sep rest with
           | part :: parts => String c part :: parts
           | [] => [String c EmptyString]
           end
  end.

(** [sep.join(parts)]. *)
Fixpoint join (sep : string) (parts : list string) : string :=
  match parts with
  | [] => EmptyString
  | [part] => part
  | part :: more => part +:+ sep +:+ join sep more
  end.

(** ** parse_scope_key (lines 192-237) *)

Definition empty_term_message : string :=
  "Error - The key can't be an empty string or null".

Definition no_scope_message (t : string) : string :=
  "Error - The key doesn't contain a scope and a"
  +:+ " key delimited by a '.' (example: system.key)."
  +:+ " Error in key: " +:+ t.

Definition parse_scope_key (t : term) : result (string * string) :=
  if negb (truthy (term_val t)) then
    Raise (AnsibleError empty_term_message)
  else
    match t with
    | None => Raise (AnsibleError empty_term_message) (* not reached: None is not truthy *)
    | Some s =>
        let parts := split "." s in
        if Nat.eqb (length parts) 1 then
          Ok ("system", nth 0 parts EmptyString)
        else if Nat.ltb (length parts) 2 then
          Raise (AnsibleError (no_scope_message s))
        else
          let scope := nth 0 parts EmptyString in
          let key := join "." (drop 1 parts) in
          Ok (scope, key)
    end.

(** ** The host process

    What the plugin gets from outside this repository: the [requests]
    library and the interpreter's wording of a [TypeError].  [World] is the
    state of everything a request can reach or change. *)

Record request : Type := mk_request {
  url : string;
  headers : gmap string pyval;
  verify : pyval;
}.

Class Host : Type := {
  World : Type;
  Response : Type;
  (** [requests.get(url, headers=..., verify=...)]: a response, or the
      exception the transport raised. *)
  transport : request -> World -> result Response * World;
  (** [response.raise_for_status()]. *)
  raise_for_status : Response -> result unit;
  (** [response.json()]. *)
  response_json : Response -> result json;
  (** The text of the [TypeError] of [data[key]] when [data] is no dict. *)
  not_subscriptable : json -> string;
}.

(** ** The dict the response decodes to *)

Fixpoint dict_get (key : string) (members : list (string * json)) : option json :=
  match members with
  | [] => None
  | (k, v) :: rest =>
      match dict_get key rest with
      | Some later => Some later
      | None => if String.eqb k key then Some v else None
      end
  end.

Section Plugin.
Context {host : Host}.

(** [data[key]] for a [str] key. *)
Definition getitem (data : json) (key : string) : result json :=
  match data with
  | JObject members =>
      match dict_get key members with
      | Some v => Ok v
      | None => Raise (KeyError key)
      end
  | other => Raise (TypeError (not_subscriptable other))
  end.

(** *** Process state and the monad of the plugin's body *)

Record state : Type := mk_state {
  world : World;
  sent : list request;
  warnings_disabled : bool;
}.

Definition M (A : Type) : Type := state -> result A * state.

Definition ret {A} (a : A) : M A := fun s => (Ok a, s).

Definition lift {A} (r : result A) : M A := fun s => (r, s).

Definition bind {A B} (m : M A) (k : A -> M B) : M B :=
  fun s =>
    match m s with
    | (Ok a, s') => k a s'
    | (Raise e, s') => (Raise e, s')
    end.

Notation "'let!' x ':=' m 'in' k" := (bind m (fun x => k))
  (at level 10, x name, m at level 100, k at level 200).

(** [requests.packages.urllib3.disable_warnings()]. *)
Definition disable_warnings : M unit :=
  fun s => (Ok tt, mk_state (world s) (sent s) true).

(** [requests.get]: the request goes out and is recorded. *)
Definition requests_get (req : request) : M Response :=
  fun s =>
    let (r, w) := transport req (world s) in
    (r, mk_state w (sent s ++ [req]) (warnings_disabled s)).

(** *** The keyword arguments and the environment *)

(** [kwargs.get(name, default)]. *)
Definition kwargs_get (kwargs : gmap string pyval) (name : string) (default : pyval) : pyval :=
  match kwargs !! name with
  | Some v => v
  | None => default
  end.

(** [os.environ.get(name)]. *)
Definition environ_get (environ : gmap string string) (name : string) : pyval :=
  match environ !! name with
  | Some s => PStr s
  | None => PNone
  end.

Variable environ : gmap string string.
Variable kwargs : gmap string pyval.

(** *** The body of the loop of run, by the local it computes *)

(** Lines 123-130. *)
Definition api_url : pyval :=
  let api_url := kwargs_get kwargs "api_url" PNone in
  if negb (truthy api_url) then
    let hostname := kwargs_get kwargs "hostname" (PStr "localhost") in
    let port := kwargs_get kwargs "port" PNone in
    if truthy port then
      PStr ("https://" +:+ str hostname +:+ ":" +:+ str port +:+ "/api")
    else
      PStr ("https://" +:+ str hostname +:+ "/api")
  else api_url.

(** Line 132. *)
Definition ssl_verify : pyval := kwargs_get kwargs "ssl_verify" (PBool true).

(** Lines 140-144. *)
Definition auth_token : pyval :=
  let auth_token := kwargs_get kwargs "auth_token" PNone in
  let auth_token :=
    if negb (truthy auth_token) then environ_get environ "ST2_ACTION_AUTH_TOKEN"
    else auth_token in
  if negb (truthy auth_token) then environ_get environ "ST2_AUTH_TOKEN"
  else auth_token.

(** Lines 149-151. *)
Definition api_key : pyval :=
  let api_key := kwargs_get kwargs "api_key" PNone in
  if negb (truthy api_key) then environ_get environ "ST2_API_KEY"
  else api_key.

(** Lines 153-154. *)
Definition decrypt : pyval := kwargs_get kwargs "decrypt" (PBool false).
Definition user : pyval := kwargs_get kwargs "user" PNone.

Definition no_auth_message : string :=
  "Error no auth information provided. You must specify"
  +:+ " either auth_token or api_key parameters. Or, set one"
  +:+ " of the following environment variables: ST2_AUTH_TOKEN,"
  +:+ " ST2_ACTION_AUTH_TOKEN, or ST2_API_KEY".

(** Lines 156-166. *)
Definition make_headers : result (gmap string pyval) :=
  let headers : gmap string pyval := ∅ in
  if truthy auth_token then Ok (<["X-Auth-Token" := auth_token]> headers)
  else if truthy api_key then Ok (<["St2-Api-Key" := api_key]> headers)
  else Raise (AnsibleError no_auth_message).

(** Lines 172-177. *)
Definition make_url (scope key : string) : string :=
  let url := str api_url +:+ "/v1/keys/" +:+ key +:+ "?scope=" +:+ scope in
  let url := if truthy decrypt then url +:+ "&decrypt=true" else url in
  let url := if truthy user then url +:+ "&user=" +:+ str user else url in
  url.

(** Lines 123-185: one iteration of the loop; the value it appends. *)
Definition lookup_term (t : term) : M json :=
  let! _ := if negb (truthy ssl_verify) then disable_warnings else ret tt in
  let! headers := lift make_headers in
  let! scope_key := lift (parse_scope_key t) in
  let '(scope, key) := scope_key in
  let! response := requests_get (mk_request (make_url scope key) headers ssl_verify) in
  let! _ := lift (raise_for_status response) in
  let! data := lift (response_json response) in
  lift (getitem data "value").

(** *** run (lines 116-190) *)

(** How the [for] statement inside the [try] ends: it runs to its end, or
    an iteration raises while the loop variable holds [failed]. *)
Inductive loop_end : Type :=
| Completed (values : list json)
| Raised (failed : term) (e : exn).

Fixpoint for_terms (terms : list term) (values : list json) (s : state) : loop_end * state :=
  match terms with
  | [] => (Completed values, s)
  | t :: rest =>
      match lookup_term t s with
      | (Ok v, s') => for_terms rest (values ++ [v]) s'
      | (Raise e, s') => (Raised t e, s')
      end
  end.

Definition no_requests_message : string :=
  String "034" "requests" +:+ String "034" " module is required for st2kv lookup."
  +:+ " see http://docs.python-requests.org/en/master/user/install/".

Definition locating_message (t : term) (e : exn) : string :=
  "Error locating '" +:+ str (term_val t) +:+ "' in kv store. Error was " +:+ str_exn e.

(** [HAS_REQUESTS] is the module's global of that name; the [variables]
    argument is not read. *)
Definition run (HAS_REQUESTS : bool) (terms : list term) : M (list json) :=
  fun s =>
    if negb HAS_REQUESTS then (Raise (AnsibleError no_requests_message), s)
    else
      match for_terms terms [] s with
      | (Completed values, s') => (Ok values, s')
      | (Raised t e, s') => (Raise (AnsibleError (locating_message t e)), s')
      end.

End Plugin.

(** ** Vocabulary of the specification *)

(** The string holds the character. *)
Fixpoint contains (c : ascii) (s : string) : bool :=
  match s with
  | EmptyString => false
  | String c' rest => if decide (c' = c) then true else contains c rest
  end.

(** ** The specification's reading of the credentials

    The five sources in the order of their priority; the first one that is
    not empty is the credential of the call.  Compared with [make_headers]
    in [make_headers_by_priority] below. *)

Inductive credential : Type :=
| Token (value : pyval)
| ApiKey (value : pyval).

Definition credential_value (c : credential) : pyval :=
  match c with
  | Token value => value
  | ApiKey value => value
  end.

Definition credential_sources (environ : gmap string string) (kwargs : gmap string pyval) : list credential :=
  [ Token (kwargs_get kwargs "auth_token" PNone);
    Token (environ_get environ "ST2_ACTION_AUTH_TOKEN");
    Token (environ_get environ "ST2_AUTH_TOKEN");
    ApiKey (kwargs_get kwargs "api_key" PNone);
    ApiKey (environ_get environ "ST2_API_KEY") ].

Fixpoint first_not_empty (sources : list credential) : option credential :=
  match sources with
  | [] => None
  | c :: later => if truthy (credential_value c) then Some c else first_not_empty later
  end.

Definition resolved_credential (environ : gmap string string) (kwargs : gmap string pyval) : option credential :=
  first_not_empty (credential_sources environ kwargs).

Definition credential_header (c : credential) : gmap string pyval :=
  match c with
  | Token value => {[ "X-Auth-Token" := value ]}
  | ApiKey value => {[ "St2-Api-Key" := value ]}
  end.

(** ** Batches whose terms are all answered *)

Section Answered.
Context {host : Host}.
Variable environ : gmap string string.
Variable kwargs : gmap string pyval.

(** The state an iteration leaves when its request went out and left the
    remote side as [w]. *)
Definition after_request (s : state) (req : request) (w : World) : state :=
  mk_state w (sent s ++ [req])
           (if negb (truthy (ssl_verify kwargs)) then true else warnings_disabled s).

(** The state an iteration leaves when it raises before its request. *)
Definition before_request (s : state) : state :=
  mk_state (world s) (sent s)
           (if negb (truthy (ssl_verify kwargs)) then true else warnings_disabled s).

(** What lines 181-185 make of the outcome of the request. *)
Definition read_value (outcome : result Response) : result json :=
  match outcome with
  | Raise e => Raise e
  | Ok response =>
      match raise_for_status response with
      | Raise e => Raise e
      | Ok _ =>
          match response_json response with
          | Raise e => Raise e
          | Ok data => getitem data "value"
          end
      end
  end.

(** The request for [t] is answered from state [s] with a response of
    success status whose body is an object with member "value" equal to
    [v]. *)
Definition answered (t : term) (s : state) (v : json) (s' : state) : Prop :=
  exists hdrs scope key response w members,
    make_headers environ kwargs = Ok hdrs /\
    parse_scope_key t = Ok (scope, key) /\
    transport (mk_request (make_url kwargs scope key) hdrs (ssl_verify kwargs)) (world s)
      = (Ok response, w) /\
    raise_for_status response = Ok tt /\
    response_json response = Ok (JObject members) /\
    dict_get "value" members = Some v /\
    s' = after_request s (mk_request (make_url kwargs scope key) hdrs (ssl_verify kwargs)) w.

(** Every term of the batch is answered, one after the other. *)
Inductive all_answered : list term -> state -> list json -> state -> Prop :=
| all_answered_nil s : all_answered [] s [] s
| all_answered_cons t terms v values s s1 s2 :
    answered t s v s1 ->
    all_answered terms s1 values s2 ->
    all_answered (t :: terms) s (v :: values) s2.

(** [r] is the request the loop body builds for [t]: the headers of the
    call's credential, the URL of the parsed term, the [ssl_verify] flag. *)
Definition requested (t : term) (r : request) : Prop :=
  exists hdrs scope key,
    make_headers environ kwargs = Ok hdrs /\
    parse_scope_key t = Ok (scope, key) /\
    r = mk_request (make_url kwargs scope key) hdrs (ssl_verify kwargs).

End Answered.

(** ** What run reads of its surroundings *)

(** The options [run] looks up in its keyword arguments (lines 123-154). *)
Definition options_read : list string :=
  ["api_url"; "hostname"; "port"; "ssl_verify"; "auth_token"; "api_key"; "decrypt"; "user"].

(** The variables [run] looks up in the environment (lines 142-151). *)
Definition variables_read : list string :=
  ["ST2_ACTION_AUTH_TOKEN"; "ST2_AUTH_TOKEN"; "ST2_API_KEY"].

(** ** A scripted host

    A host for the examples: the remote side is the list of the outcomes it
    will give, one per request, and refuses the connection once the list is
    used up.  A response is its status code and what its body decodes to;
    [raise_for_status] raises for the 4xx and 5xx codes. *)

Module Scripted.

Definition response : Type := Z * result json.

Definition get (req : request) (script : list (result response)) : result response * list (result response) :=
  match script with
  | [] => (Raise (LibraryError "ConnectionError" "connection refused"), [])
  | outcome :: later => (outcome, later)
  end.

Definition check_status (r : response) : result unit :=
  if (400 <=? fst r) && (fst r <? 600) then
    Raise (LibraryError "HTTPError" (pretty (fst r) +:+ " Error"))
  else Ok tt.

Definition host : Host := {|
  World := list (result response);
  Response := response;
  transport := get;
  raise_for_status := check_status;
  response_json := snd;
  not_subscriptable := fun _ => "object is not subscriptable";
|}.

Definition start (script : list (result response)) : @state host :=
  @mk_state host script [] false.

Definition found (v : json) : result response :=
  Ok (200, Ok (JObject [("name", JString "k"); ("value", v)])).

Definition not_found : response := (404, Ok (JObject [])).

Definition no_value : response := (200, Ok (JObject [("name", JString "k")])).

(** The configurations of the examples. *)
Definition token_kwargs : gmap string pyval :=
  {[ "api_url" := PStr "https://h/api"; "decrypt" := PBool true;
     "user" := PStr "dave"; "auth_token" := PStr "tok" ]}.

Definition token_headers : gmap string pyval := {[ "X-Auth-Token" := PStr "tok" ]}.

Definition host_kwargs : gmap string pyval :=
  {[ "hostname" := PStr "st2.example"; "port" := PStr "9101" ]}.

Definition key_environ : gmap string string := {[ "ST2_API_KEY" := "xyz123" ]}.

Definition key_headers : gmap string pyval := {[ "St2-Api-Key" := PStr "xyz123" ]}.

Definition request_for (scope key : string) : request :=
  mk_request ("https://st2.example:9101/api/v1/keys/" +:+ key +:+ "?scope=" +:+ scope)
             key_headers (PBool true).

(** Outcomes that are no answer. *)
Definition refused : exn := LibraryError "ConnectionError" "connection refused".

Definition bad_json : response := (200, Raise (LibraryError "JSONDecodeError" "Expecting value")).

Definition list_body : response := (200, Ok (JArray [JString "1"])).

Definition insecure_kwargs : gmap string pyval :=
  {[ "ssl_verify" := PBool false; "api_key" := PStr "xyz123" ]}.

Definition noisy_kwargs : gmap string pyval := <[ "wantlist" := PBool true ]> host_kwargs.

Definition noisy_environ : gmap string string := <[ "HOME" := "/root" ]> key_environ.

End Scripted.

(** ** Tactics *)

(** Unfolds one iteration of the loop and splits on the [ssl_verify] test. *)
Ltac step_body :=
  unfold lookup_term, bind, lift, ret, disable_warnings, requests_get,
    after_request, before_request;
  match goal with
  | |- context [negb (truthy (ssl_verify ?kw))] => destruct (negb (truthy (ssl_verify kw)))
  end;
  cbn [world sent warnings_disabled].

(** * Properties *)

(** ** Strings *)

Lemma append_assoc (a b c : string) : (a +:+ b) +:+ c = a +:+ (b +:+ c).
Proof.
  induction a as [|x a IH]; [reflexivity|].
  change (String x ((a +:+ b) +:+ c) = String x (a +:+ (b +:+ c))).
  rewrite IH. reflexivity.
Qed.

Lemma append_empty_r (a : string) : a +:+ EmptyString = a.
Proof.
  induction a as [|x a IH]; [reflexivity|].
  change (String x (a +:+ EmptyString) = String x a).
  rewrite IH. reflexivity.
Qed.

Lemma split_not_nil sep s : split sep s <> [].
Proof.
  destruct s as [|c rest]; simpl; [discriminate|].
  destruct (decide (c = sep)); [discriminate|].
  destruct (split sep rest); discriminate.
Qed.

Lemma split_without_sep sep s : contains sep s = false -> split sep s = [s].
Proof.
  induction s as [|c rest IH]; simpl; [reflexivity|].
  destruct (decide (c = sep)); [discriminate|].
  intros H. rewrite (IH H). reflexivity.
Qed.

Lemma split_at_first_sep sep a b :
  contains sep a = false -> split sep (a +:+ String sep b) = a :: split sep b.
Proof.
  induction a as [|c rest IH].
  - intros _. change (EmptyString +:+ String sep b) with (String sep b). simpl.
    destruct (decide (sep = sep)); [reflexivity|congruence].
  - change (String c rest +:+ String sep b) with (String c (rest +:+ String sep b)).
    simpl. destruct (decide (c = sep)); [discriminate|].
    intros H. rewrite (IH H). reflexivity.
Qed.

Lemma join_split sep s : join (String sep EmptyString) (split sep s) = s.
Proof.
  induction s as [|c rest IH]; simpl; [reflexivity|].
  pose proof (split_not_nil sep rest) as Hnil.
  destruct (decide (c = sep)) as [->|Hne];
    destruct (split sep rest) as [|p ps] eqn:E; try congruence.
  - simpl in *. rewrite IH. reflexivity.
  - destruct ps as [|q qs]; simpl in *; [congruence|].
    rewrite <- IH. reflexivity.
Qed.

(** A string that holds the separator splits at its first occurrence. *)
Lemma first_sep_cases sep s :
  contains sep s = true ->
  exists a b, contains sep a = false /\ s = a +:+ String sep b.
Proof.
  induction s as [|c rest IH]; simpl; [discriminate|].
  destruct (decide (c = sep)) as [->|Hne].
  - intros _. exists EmptyString, rest. split; reflexivity.
  - intros H. destruct (IH H) as (a & b & Ha & ->).
    exists (String c a), b. simpl. destruct (decide (c = sep)); [congruence|].
    split; [assumption|reflexivity].
Qed.

Lemma truthy_str s : truthy (PStr s) = true <-> s <> EmptyString.
Proof.
  simpl. destruct (String.eqb_spec s EmptyString) as [->|Hne]; simpl; split; congruence.
Qed.

(** ** parse_scope_key *)

Lemma parse_scope_key_bare s :
  s <> EmptyString -> contains "." s = false -> parse_scope_key (Some s) = Ok ("system", s).
Proof.
  intros Hne Hdot. unfold parse_scope_key.
  apply truthy_str in Hne. cbn [term_val]. rewrite Hne. cbn [negb].
  rewrite (split_without_sep _ _ Hdot). reflexivity.
Qed.

Lemma parse_scope_key_dotted scope key :
  contains "." scope = false ->
  parse_scope_key (Some (scope +:+ "." +:+ key)) = Ok (scope, key).
Proof.
  intros Hdot. unfold parse_scope_key. cbn [term_val].
  assert (Hne : scope +:+ "." +:+ key <> EmptyString) by (destruct scope; discriminate).
  apply truthy_str in Hne. rewrite Hne. cbn [negb].
  change ("." +:+ key) with (String "." key).
  rewrite (split_at_first_sep _ _ _ Hdot).
  pose proof (split_not_nil "." key) as Hnil.
  destruct (split "." key) as [|p ps] eqn:E; [congruence|].
  cbn [length Nat.eqb Nat.ltb Nat.leb nth drop].
  rewrite <- E. change "."%string with (String "."%char EmptyString).
  rewrite join_split. reflexivity.
Qed.

Lemma parse_scope_key_total s :
  s <> EmptyString -> exists scope key, parse_scope_key (Some s) = Ok (scope, key).
Proof.
  intros Hne. destruct (contains "." s) eqn:Hdot.
  - destruct (first_sep_cases _ _ Hdot) as (a & b & Ha & ->).
    exists a, b. apply (parse_scope_key_dotted a b Ha).
  - exists "system", s. apply parse_scope_key_bare; assumption.
Qed.

(** C5.  For a term that is not empty: when it holds no '.', the scope is
    "system" and the key is the whole term; when it reads scope '.' key with
    no '.' in scope, that is, it is cut at its first '.', the parse is
    (scope, key), the later dots staying in the key; a first segment "st2kv"
    is a scope like any other and is not stripped; and in every case the
    parse returns a pair. *)
Theorem parse_scope_key_splits_at_first_dot (s : string) :
  s <> EmptyString ->
  (contains "." s = false -> parse_scope_key (Some s) = Ok ("system", s)) /\
  (forall scope key,
      contains "." scope = false -> s = scope +:+ "." +:+ key ->
      parse_scope_key (Some s) = Ok (scope, key)) /\
  (forall key, s = "st2kv." +:+ key -> parse_scope_key (Some s) = Ok ("st2kv", key)) /\
  (exists scope key, parse_scope_key (Some s) = Ok (scope, key)).
Proof.
  intros Hne. repeat split.
  - apply parse_scope_key_bare, Hne.
  - intros scope key Hdot ->. apply parse_scope_key_dotted, Hdot.
  - intros key ->. apply (parse_scope_key_dotted "st2kv" key). reflexivity.
  - apply parse_scope_key_total, Hne.
Qed.

Lemma parse_scope_key_splits_at_first_dot_witness :
  "system.my.coolkey" <> EmptyString /\
  parse_scope_key (Some "system.my.coolkey") = Ok ("system", "my.coolkey").
Proof.
  assert (Hne : "system.my.coolkey" <> EmptyString) by discriminate.
  split; [exact Hne|].
  destruct (parse_scope_key_splits_at_first_dot "system.my.coolkey" Hne)
    as (_ & Hcut & _ & _).
  apply Hcut; reflexivity.
Defined.

(** C6.  parse_scope_key raises exactly for the term that is None or the
    empty string, the error being the one for an empty or null key, and it
    raises no other error on any term. *)
Theorem parse_scope_key_fails_iff (t : term) :
  (t = None \/ t = Some EmptyString <->
   parse_scope_key t = Raise (AnsibleError empty_term_message)) /\
  (forall e, parse_scope_key t = Raise e -> e = AnsibleError empty_term_message).
Proof.
  destruct t as [s|].
  - destruct (decide (s = EmptyString)) as [->|Hne].
    + split; [split; [reflexivity|auto]|]. intros e. cbn. congruence.
    + destruct (parse_scope_key_total s Hne) as (scope & key & Hsk). rewrite Hsk.
      split; [split|]; [intros [?|?]; congruence|discriminate..].
  - split; [split; [reflexivity|auto]|]. cbn. congruence.
Qed.

Example parse_no_dot :
  parse_scope_key (Some "my_really_sweet_key") = Ok ("system", "my_really_sweet_key").
Proof. reflexivity. Qed.

Example parse_st2kv_prefix :
  parse_scope_key (Some "st2kv.system.key") = Ok ("st2kv", "system.key").
Proof. reflexivity. Qed.

Example parse_edge_dots :
  parse_scope_key (Some ".") = Ok (EmptyString, EmptyString) /\
  parse_scope_key (Some "a.") = Ok ("a", EmptyString) /\
  parse_scope_key (Some ".b") = Ok (EmptyString, "b").
Proof. repeat split. Qed.

Example str_int : str (PInt 9101) = "9101" /\ str (PInt (-7)) = "-7".
Proof. split; reflexivity. Qed.

(** ** The loop body *)

Section Properties.
Context {host : Host}.
Variable environ : gmap string string.
Variable kwargs : gmap string pyval.

Lemma lookup_term_no_headers t s e :
  make_headers environ kwargs = Raise e ->
  lookup_term environ kwargs t s = (Raise e, before_request kwargs s).
Proof. intros H. step_body; rewrite H; try reflexivity. destruct s; reflexivity. Qed.

Lemma lookup_term_no_parse t s hdrs e :
  make_headers environ kwargs = Ok hdrs -> parse_scope_key t = Raise e ->
  lookup_term environ kwargs t s = (Raise e, before_request kwargs s).
Proof. intros H1 H2. step_body; rewrite H1, H2; try reflexivity. destruct s; reflexivity. Qed.

Lemma lookup_term_request t s hdrs scope key outcome w :
  make_headers environ kwargs = Ok hdrs -> parse_scope_key t = Ok (scope, key) ->
  transport (mk_request (make_url kwargs scope key) hdrs (ssl_verify kwargs)) (world s) = (outcome, w) ->
  lookup_term environ kwargs t s =
    (read_value outcome,
     after_request kwargs s (mk_request (make_url kwargs scope key) hdrs (ssl_verify kwargs)) w).
Proof.
  intros H1 H2 H3. unfold read_value.
  step_body; rewrite H1, H2; cbn [world sent warnings_disabled]; rewrite H3;
    (destruct outcome as [response|e]; [|reflexivity]);
    (destruct (raise_for_status response); [|reflexivity]);
    (destruct (response_json response); reflexivity).
Qed.

(** With credentials and a term that parses, the iteration issues exactly
    one request, the one built from the configuration. *)
Lemma lookup_term_sends t s hdrs scope key :
  make_headers environ kwargs = Ok hdrs -> parse_scope_key t = Ok (scope, key) ->
  sent (snd (lookup_term environ kwargs t s)) =
    sent s ++ [mk_request (make_url kwargs scope key) hdrs (ssl_verify kwargs)].
Proof.
  intros H1 H2.
  destruct (transport (mk_request (make_url kwargs scope key) hdrs (ssl_verify kwargs)) (world s))
    as [outcome w] eqn:H3.
  rewrite (lookup_term_request _ _ _ _ _ _ _ H1 H2 H3). reflexivity.
Qed.

Lemma lookup_term_answered t s v s' :
  answered environ kwargs t s v s' -> lookup_term environ kwargs t s = (Ok v, s').
Proof.
  intros (hdrs & scope & key & response & w & members & H1 & H2 & H3 & H4 & H5 & H6 & ->).
  rewrite (lookup_term_request _ _ _ _ _ _ _ H1 H2 H3).
  unfold read_value. rewrite H4, H5. cbn. rewrite H6. reflexivity.
Qed.

(** ** The loop *)

Lemma for_terms_answered pre rest acc s values s1 :
  all_answered environ kwargs pre s values s1 ->
  for_terms environ kwargs (pre ++ rest) acc s = for_terms environ kwargs rest (acc ++ values) s1.
Proof.
  intros H. revert acc. induction H as [s|t terms v values s s1 s2 Ht _ IH]; intros acc.
  - cbn. rewrite app_nil_r. reflexivity.
  - cbn. rewrite (lookup_term_answered _ _ _ _ Ht). rewrite IH, <- app_assoc. reflexivity.
Qed.

Lemma all_answered_length terms s values s' :
  all_answered environ kwargs terms s values s' ->
  length values = length terms /\ length (sent s') = (length (sent s) + length terms)%nat.
Proof.
  induction 1 as [s|t terms v values s s1 s2 Ht _ [IH1 IH2]]; [cbn; lia|].
  destruct Ht as (hdrs & scope & key & response & w & members & _ & _ & _ & _ & _ & _ & ->).
  cbn in *. rewrite IH1, IH2, length_app. cbn. lia.
Qed.

(** The i-th value of an answered batch is the one its i-th term was
    answered with. *)
Lemma all_answered_lookup terms s values s' (i : nat) (t : term) :
  all_answered environ kwargs terms s values s' ->
  terms !! i = Some t ->
  exists v si si', values !! i = Some v /\ answered environ kwargs t si v si'.
Proof.
  intros H. revert i. induction H as [s|t0 terms v values s s1 s2 Ht _ IH]; intros i Hi.
  - rewrite lookup_nil in Hi. discriminate.
  - destruct i as [|i]; cbn in Hi.
    + injection Hi as ->. exists v, s, s1. split; [reflexivity|assumption].
    + destruct (IH i Hi) as (v' & si & si' & Hv & Ha). exists v', si, si'.
      split; assumption.
Qed.

(** The batch fails at the first iteration that raises, in the state that
    iteration leaves. *)
Lemma run_fails_at pre t post values s s1 e s2 :
  all_answered environ kwargs pre s values s1 ->
  lookup_term environ kwargs t s1 = (Raise e, s2) ->
  run environ kwargs true (pre ++ t :: post) s = (Raise (AnsibleError (locating_message t e)), s2).
Proof.
  intros Hpre Ht. unfold run. cbn [negb].
  rewrite (for_terms_answered _ _ _ _ _ _ Hpre). cbn. rewrite Ht. reflexivity.
Qed.

(** ** Request construction *)

Lemma make_url_exact scope key :
  make_url kwargs scope key =
    str (api_url kwargs) +:+ "/v1/keys/" +:+ key +:+ "?scope=" +:+ scope
    +:+ (if truthy (kwargs_get kwargs "decrypt" (PBool false)) then "&decrypt=true" else EmptyString)
    +:+ (if truthy (kwargs_get kwargs "user" PNone)
         then "&user=" +:+ str (kwargs_get kwargs "user" PNone) else EmptyString).
Proof.
  unfold make_url, decrypt, user.
  destruct (truthy (kwargs_get kwargs "decrypt" (PBool false)));
    destruct (truthy (kwargs_get kwargs "user" PNone));
    rewrite ?append_assoc, ?append_empty_r; reflexivity.
Qed.

(** C1.  For a term that parses to (scope, key), under a configuration whose
    credentials resolve (so that a request is made), the iteration issues
    one request and its URL is api_url, "/v1/keys/", key, "?scope=", scope,
    then "&decrypt=true" when decrypt is true, then "&user=" and the user
    when user is not empty, in that order. *)
Theorem requested_url_exact (t : term) (scope key : string) (hdrs : gmap string pyval) (s : state) :
  parse_scope_key t = Ok (scope, key) ->
  make_headers environ kwargs = Ok hdrs ->
  map url (sent (snd (lookup_term environ kwargs t s))) =
    map url (sent s) ++
    [ str (api_url kwargs) +:+ "/v1/keys/" +:+ key +:+ "?scope=" +:+ scope
      +:+ (if truthy (kwargs_get kwargs "decrypt" (PBool false)) then "&decrypt=true" else EmptyString)
      +:+ (if truthy (kwargs_get kwargs "user" PNone)
           then "&user=" +:+ str (kwargs_get kwargs "user" PNone) else EmptyString) ].
Proof.
  intros Hparse Hhdrs.
  rewrite (lookup_term_sends _ _ _ _ _ Hhdrs Hparse), map_app.
  cbn [map url]. rewrite make_url_exact. reflexivity.
Qed.

(** C7.  The base URL: an api_url that is given (not empty) is used as it
    is; when api_url is missing or empty, the base URL is
    "https://hostname:port/api" for a port that is given (not empty) and
    "https://hostname/api" otherwise, where hostname is "localhost" when the
    configuration has none. *)
Theorem api_url_derivation :
  let hostname :=
    match kwargs !! "hostname" with Some h => h | None => PStr "localhost" end in
  (forall u, kwargs !! "api_url" = Some u -> truthy u = true -> api_url kwargs = u) /\
  ((kwargs !! "api_url" = None \/ exists u, kwargs !! "api_url" = Some u /\ truthy u = false) ->
   (forall p, kwargs !! "port" = Some p -> truthy p = true ->
      api_url kwargs = PStr ("https://" +:+ str hostname +:+ ":" +:+ str p +:+ "/api")) /\
   ((kwargs !! "port" = None \/ exists p, kwargs !! "port" = Some p /\ truthy p = false) ->
      api_url kwargs = PStr ("https://" +:+ str hostname +:+ "/api"))).
Proof.
  cbv zeta. unfold api_url, kwargs_get. split.
  - intros u -> ->. reflexivity.
  - intros Habsent.
    assert (Hfalsy : truthy (match kwargs !! "api_url" with Some v => v | None => PNone end) = false).
    { destruct Habsent as [->|(u & -> & Hu)]; [reflexivity|exact Hu]. }
    rewrite Hfalsy. cbn [negb]. split.
    + intros p -> ->. reflexivity.
    + intros [->|(p & -> & ->)]; reflexivity.
Qed.

(** ** Credentials *)

(** [make_headers] follows the specification's priority list. *)
Lemma make_headers_by_priority :
  make_headers environ kwargs =
    match resolved_credential environ kwargs with
    | Some c => Ok (credential_header c)
    | None => Raise (AnsibleError no_auth_message)
    end.
Proof.
  unfold make_headers, auth_token, api_key, resolved_credential, credential_sources.
  cbn [first_not_empty credential_value].
  set (a := kwargs_get kwargs "auth_token" PNone).
  set (b := environ_get environ "ST2_ACTION_AUTH_TOKEN").
  set (c := environ_get environ "ST2_AUTH_TOKEN").
  set (d := kwargs_get kwargs "api_key" PNone).
  set (e := environ_get environ "ST2_API_KEY").
  destruct (truthy a) eqn:Ha; destruct (truthy b) eqn:Hb; destruct (truthy c) eqn:Hc;
    destruct (truthy d) eqn:Hd; destruct (truthy e) eqn:He;
    cbn [negb]; rewrite ?Ha, ?Hb, ?Hc, ?Hd, ?He; cbn [negb credential_header];
    rewrite ?Ha, ?Hb, ?Hc, ?Hd, ?He, ?insert_empty; reflexivity.
Qed.

(** C2.  The credential of a call is the first source that is not empty
    among: the auth_token argument, ST2_ACTION_AUTH_TOKEN, ST2_AUTH_TOKEN,
    the api_key argument, ST2_API_KEY.  When it is a token, the headers are
    exactly X-Auth-Token with that token, and hold no St2-Api-Key, whatever
    api_key is available; when it is an API key (no token resolved), the
    headers are exactly St2-Api-Key with that key; and these are the headers
    of the request an iteration issues. *)
Theorem credentials_by_priority :
  match resolved_credential environ kwargs with
  | Some c =>
      make_headers environ kwargs =
        Ok (match c with
            | Token token => {[ "X-Auth-Token" := token ]}
            | ApiKey key => {[ "St2-Api-Key" := key ]}
            end) /\
      (forall token, c = Token token ->
         forall hdrs, make_headers environ kwargs = Ok hdrs -> hdrs !! "St2-Api-Key" = None) /\
      (forall t scope key s,
         parse_scope_key t = Ok (scope, key) ->
         map headers (sent (snd (lookup_term environ kwargs t s))) =
           map headers (sent s) ++ [credential_header c])
  | None => make_headers environ kwargs = Raise (AnsibleError no_auth_message)
  end.
Proof.
  pose proof make_headers_by_priority as Hspec.
  destruct (resolved_credential environ kwargs) as [c|]; [|exact Hspec].
  split; [|split].
  - rewrite Hspec. destruct c; reflexivity.
  - intros token -> hdrs Hhdrs. rewrite Hspec in Hhdrs. injection Hhdrs as <-.
    cbn [credential_header]. apply lookup_singleton_ne. discriminate.
  - intros t scope key s Hparse.
    rewrite (lookup_term_sends _ _ _ _ _ Hspec Hparse), map_app. reflexivity.
Qed.

(** C3, amended.  When no credential resolves and the batch has at least
    one term, run fails with the error for missing auth information,
    reported for the first term, and no request is issued: the requests sent
    and the remote side are as before the call. *)
Theorem no_credentials_fails_without_request (t : term) (rest : list term) (s : state) :
  resolved_credential environ kwargs = None ->
  run environ kwargs true (t :: rest) s =
    (Raise (AnsibleError (locating_message t (AnsibleError no_auth_message))),
     before_request kwargs s) /\
  sent (before_request kwargs s) = sent s /\
  world (before_request kwargs s) = world s.
Proof.
  intros Hnone. pose proof make_headers_by_priority as Hspec. rewrite Hnone in Hspec.
  split; [|split; reflexivity].
  apply (run_fails_at [] t rest [] s s); [constructor|].
  apply lookup_term_no_headers, Hspec.
Qed.

(** ** Batches *)

(** C10.  With the requests library present, run on the empty batch
    returns the empty list and leaves the state as it was: nothing is
    parsed, no credential is looked at, no request is issued, whatever the
    arguments and the environment hold. *)
Theorem run_empty_batch (s : state) :
  run environ kwargs true [] s = (Ok [], s) /\
  sent (snd (run environ kwargs true [] s)) = sent s /\
  world (snd (run environ kwargs true [] s)) = world s.
Proof.
  assert (Hrun : run environ kwargs true [] s = (Ok [], s)).
  { unfold run. cbn [negb for_terms]. reflexivity. }
  rewrite Hrun. repeat split.
Qed.

(** C8.  When every term of the batch is answered (success status, a body
    with a "value" member), run returns the list of those values: as many
    values as terms, the i-th value being the "value" member of the response
    to the i-th term. *)
Theorem run_returns_values_in_order (terms : list term) (values : list json) (s s' : state) :
  all_answered environ kwargs terms s values s' ->
  run environ kwargs true terms s = (Ok values, s') /\
  length values = length terms /\
  (forall (i : nat) (t : term), terms !! i = Some t ->
     exists v si si', values !! i = Some v /\ answered environ kwargs t si v si').
Proof.
  intros H. split; [|split].
  - unfold run. cbn [negb].
    rewrite <- (app_nil_r terms), (for_terms_answered _ _ _ _ _ _ H). reflexivity.
  - apply (all_answered_length _ _ _ _ H).
  - intros i t. apply (all_answered_lookup _ _ _ _ _ _ H).
Qed.

(** C4.  When the terms before [t] are all answered and the response to the
    request for [t] has a status that raise_for_status raises for, run
    fails with one error that names [t] and carries the transport's error;
    no list is returned; the request for [t] is the last one issued, so
    that none goes out for the later terms. *)
Theorem bad_status_fails_fast
    (pre post : list term) (t : term) (values : list json) (s s1 : state)
    (hdrs : gmap string pyval) (scope key : string) (response : Response) (w : World) (e : exn) :
  all_answered environ kwargs pre s values s1 ->
  make_headers environ kwargs = Ok hdrs ->
  parse_scope_key t = Ok (scope, key) ->
  transport (mk_request (make_url kwargs scope key) hdrs (ssl_verify kwargs)) (world s1)
    = (Ok response, w) ->
  raise_for_status response = Raise e ->
  let req := mk_request (make_url kwargs scope key) hdrs (ssl_verify kwargs) in
  let s2 := after_request kwargs s1 req w in
  run environ kwargs true (pre ++ t :: post) s =
    (Raise (AnsibleError
              ("Error locating '" +:+ str (term_val t) +:+ "' in kv store. Error was "
               +:+ str_exn e)), s2) /\
  sent s2 = sent s1 ++ [req] /\
  length (sent s2) = (length (sent s) + length pre + 1)%nat /\
  world s2 = w.
Proof.
  intros Hpre Hhdrs Hparse Hget Hstatus. cbv zeta. split; [|split; [|split]].
  - eapply run_fails_at; [exact Hpre|].
    rewrite (lookup_term_request _ _ _ _ _ _ _ Hhdrs Hparse Hget).
    unfold read_value. rewrite Hstatus. reflexivity.
  - reflexivity.
  - cbn [sent after_request]. rewrite length_app.
    destruct (all_answered_length _ _ _ _ Hpre) as [_ ->]. cbn. lia.
  - reflexivity.
Qed.

(** C9.  When the terms before [t] are all answered and the request for [t]
    succeeds with a body that is an object without a "value" member, run
    fails with the error raised for the missing member, reported for [t],
    and returns no list. *)
Theorem missing_value_fails_batch
    (pre post : list term) (t : term) (values : list json) (s s1 : state)
    (hdrs : gmap string pyval) (scope key : string) (response : Response) (w : World)
    (members : list (string * json)) :
  all_answered environ kwargs pre s values s1 ->
  make_headers environ kwargs = Ok hdrs ->
  parse_scope_key t = Ok (scope, key) ->
  transport (mk_request (make_url kwargs scope key) hdrs (ssl_verify kwargs)) (world s1)
    = (Ok response, w) ->
  raise_for_status response = Ok tt ->
  response_json response = Ok (JObject members) ->
  dict_get "value" members = None ->
  run environ kwargs true (pre ++ t :: post) s =
    (Raise (AnsibleError
              ("Error locating '" +:+ str (term_val t) +:+ "' in kv store. Error was "
               +:+ str_exn (KeyError "value"))),
     after_request kwargs s1 (mk_request (make_url kwargs scope key) hdrs (ssl_verify kwargs)) w).
Proof.
  intros Hpre Hhdrs Hparse Hget Hstatus Hjson Hvalue.
  eapply run_fails_at; [exact Hpre|].
  rewrite (lookup_term_request _ _ _ _ _ _ _ Hhdrs Hparse Hget).
  unfold read_value. rewrite Hstatus, Hjson. cbn. rewrite Hvalue. reflexivity.
Qed.

End Properties.

(** ** The properties on the scripted host *)

Lemma requested_url_exact_witness :
  parse_scope_key (Some "user.mykey") = Ok ("user", "mykey") /\
  make_headers ∅ Scripted.token_kwargs = Ok Scripted.token_headers /\
  map url (sent (snd (lookup_term (host := Scripted.host) ∅ Scripted.token_kwargs
                                  (Some "user.mykey") (Scripted.start [])))) =
    [ "https://h/api/v1/keys/mykey?scope=user&decrypt=true&user=dave" ].
Proof.
  assert (Hparse : parse_scope_key (Some "user.mykey") = Ok ("user", "mykey"))
    by reflexivity.
  assert (Hhdrs : make_headers ∅ Scripted.token_kwargs = Ok Scripted.token_headers)
    by (vm_compute; reflexivity).
  split; [exact Hparse|]. split; [exact Hhdrs|].
  exact (requested_url_exact (host := Scripted.host) ∅ Scripted.token_kwargs
           (Some "user.mykey") "user" "mykey" Scripted.token_headers (Scripted.start [])
           Hparse Hhdrs).
Defined.

(** The claim C3 as it is written fails on the empty batch: with no
    credential anywhere, run returns the empty list. *)
Lemma no_credentials_empty_batch_returns :
  resolved_credential ∅ ∅ = None /\
  run (host := Scripted.host) ∅ ∅ true [] (Scripted.start []) = (Ok [], Scripted.start []).
Proof. split; reflexivity. Qed.

Lemma no_credentials_fails_without_request_witness :
  resolved_credential ∅ Scripted.host_kwargs = None /\
  run (host := Scripted.host) ∅ Scripted.host_kwargs true [Some "system.a"; Some "system.b"]
      (Scripted.start [Scripted.found (JString "x")]) =
    (Raise (AnsibleError (locating_message (Some "system.a") (AnsibleError no_auth_message))),
     Scripted.start [Scripted.found (JString "x")]).
Proof.
  assert (Hnone : resolved_credential ∅ Scripted.host_kwargs = None)
    by (vm_compute; reflexivity).
  split; [exact Hnone|].
  exact (proj1 (no_credentials_fails_without_request (host := Scripted.host)
                  ∅ Scripted.host_kwargs (Some "system.a") [Some "system.b"]
                  (Scripted.start [Scripted.found (JString "x")]) Hnone)).
Defined.

Lemma scripted_answered (scope key : string) (v : json) (t : string)
    (later : list (result Scripted.response)) (log : list request) :
  parse_scope_key (Some t) = Ok (scope, key) ->
  answered (host := Scripted.host) Scripted.key_environ Scripted.host_kwargs (Some t)
    (@mk_state Scripted.host (Scripted.found v :: later) log false) v
    (@mk_state Scripted.host later (log ++ [Scripted.request_for scope key]) false).
Proof.
  intros Hparse.
  exists Scripted.key_headers, scope, key, (200, Ok (JObject [("name", JString "k"); ("value", v)])),
    later, [("name", JString "k"); ("value", v)].
  split; [vm_compute; reflexivity|]. split; [exact Hparse|].
  repeat split.
Qed.

Lemma run_returns_values_in_order_witness :
  all_answered (host := Scripted.host) Scripted.key_environ Scripted.host_kwargs
    [Some "system.a"; Some "user.b"]
    (Scripted.start [Scripted.found (JString "1"); Scripted.found (JInt 2)])
    [JString "1"; JInt 2]
    (@mk_state Scripted.host []
       [Scripted.request_for "system" "a"; Scripted.request_for "user" "b"] false) /\
  run (host := Scripted.host) Scripted.key_environ Scripted.host_kwargs true
    [Some "system.a"; Some "user.b"]
    (Scripted.start [Scripted.found (JString "1"); Scripted.found (JInt 2)]) =
    (Ok [JString "1"; JInt 2],
     @mk_state Scripted.host []
       [Scripted.request_for "system" "a"; Scripted.request_for "user" "b"] false).
Proof.
  assert (Hall : all_answered (host := Scripted.host) Scripted.key_environ Scripted.host_kwargs
            [Some "system.a"; Some "user.b"]
            (Scripted.start [Scripted.found (JString "1"); Scripted.found (JInt 2)])
            [JString "1"; JInt 2]
            (@mk_state Scripted.host []
               [Scripted.request_for "system" "a"; Scripted.request_for "user" "b"] false)).
  { eapply all_answered_cons; [apply (scripted_answered "system" "a"); reflexivity|].
    eapply all_answered_cons; [apply (scripted_answered "user" "b"); reflexivity|].
    apply all_answered_nil. }
  split; [exact Hall|].
  exact (proj1 (run_returns_values_in_order (host := Scripted.host) _ _ _ _ _ _ Hall)).
Defined.

Lemma bad_status_fails_fast_witness :
  let s := Scripted.start
             [Scripted.found (JString "1"); Ok Scripted.not_found; Scripted.found (JString "3")] in
  let s1 := @mk_state Scripted.host [Ok Scripted.not_found; Scripted.found (JString "3")]
              [Scripted.request_for "system" "a"] false in
  let req := mk_request (make_url Scripted.host_kwargs "system" "b") Scripted.key_headers
               (ssl_verify Scripted.host_kwargs) in
  all_answered (host := Scripted.host) Scripted.key_environ Scripted.host_kwargs
    [Some "system.a"] s [JString "1"] s1 /\
  make_headers Scripted.key_environ Scripted.host_kwargs = Ok Scripted.key_headers /\
  parse_scope_key (Some "system.b") = Ok ("system", "b") /\
  transport (Host := Scripted.host) req (world s1)
    = (Ok Scripted.not_found, [Scripted.found (JString "3")]) /\
  raise_for_status (Host := Scripted.host) Scripted.not_found
    = Raise (LibraryError "HTTPError" "404 Error") /\
  let s2 := after_request Scripted.host_kwargs s1 req [Scripted.found (JString "3")] in
  run (host := Scripted.host) Scripted.key_environ Scripted.host_kwargs true
      ([Some "system.a"] ++ Some "system.b" :: [Some "system.c"]) s =
    (Raise (AnsibleError "Error locating 'system.b' in kv store. Error was 404 Error"), s2) /\
  sent s2 = sent s1 ++ [req] /\
  length (sent s2) = (length (sent s) + length [Some "system.a"] + 1)%nat /\
  world s2 = [Scripted.found (JString "3")].
Proof.
  cbv zeta.
  assert (Hpre : all_answered (host := Scripted.host) Scripted.key_environ Scripted.host_kwargs
            [Some "system.a"]
            (Scripted.start
               [Scripted.found (JString "1"); Ok Scripted.not_found; Scripted.found (JString "3")])
            [JString "1"]
            (@mk_state Scripted.host [Ok Scripted.not_found; Scripted.found (JString "3")]
               [Scripted.request_for "system" "a"] false)).
  { eapply all_answered_cons; [apply (scripted_answered "system" "a"); reflexivity|].
    apply all_answered_nil. }
  assert (Hhdrs : make_headers Scripted.key_environ Scripted.host_kwargs = Ok Scripted.key_headers)
    by (vm_compute; reflexivity).
  assert (Hparse : parse_scope_key (Some "system.b") = Ok ("system", "b")) by reflexivity.
  assert (Hget : transport (Host := Scripted.host)
            (mk_request (make_url Scripted.host_kwargs "system" "b") Scripted.key_headers
               (ssl_verify Scripted.host_kwargs))
            [Ok Scripted.not_found; Scripted.found (JString "3")]
            = (Ok Scripted.not_found, [Scripted.found (JString "3")])) by reflexivity.
  assert (Hstatus : raise_for_status (Host := Scripted.host) Scripted.not_found
            = Raise (LibraryError "HTTPError" "404 Error")) by reflexivity.
  split; [exact Hpre|]. split; [exact Hhdrs|]. split; [exact Hparse|].
  split; [exact Hget|]. split; [exact Hstatus|].
  exact (bad_status_fails_fast (host := Scripted.host) Scripted.key_environ Scripted.host_kwargs
           [Some "system.a"] [Some "system.c"] (Some "system.b") [JString "1"] _ _
           Scripted.key_headers "system" "b" Scripted.not_found _ _
           Hpre Hhdrs Hparse Hget Hstatus).
Defined.

Lemma missing_value_fails_batch_witness :
  let s := Scripted.start [Ok Scripted.no_value; Scripted.found (JString "2")] in
  let req := mk_request (make_url Scripted.host_kwargs "system" "a") Scripted.key_headers
               (ssl_verify Scripted.host_kwargs) in
  all_answered (host := Scripted.host) Scripted.key_environ Scripted.host_kwargs [] s [] s /\
  make_headers Scripted.key_environ Scripted.host_kwargs = Ok Scripted.key_headers /\
  parse_scope_key (Some "system.a") = Ok ("system", "a") /\
  transport (Host := Scripted.host) req (world s)
    = (Ok Scripted.no_value, [Scripted.found (JString "2")]) /\
  raise_for_status (Host := Scripted.host) Scripted.no_value = Ok tt /\
  response_json (Host := Scripted.host) Scripted.no_value = Ok (JObject [("name", JString "k")]) /\
  dict_get "value" [("name", JString "k")] = None /\
  run (host := Scripted.host) Scripted.key_environ Scripted.host_kwargs true
      ([] ++ Some "system.a" :: [Some "system.b"]) s =
    (Raise (AnsibleError "Error locating 'system.a' in kv store. Error was 'value'"),
     after_request Scripted.host_kwargs s req [Scripted.found (JString "2")]).
Proof.
  cbv zeta.
  assert (Hhdrs : make_headers Scripted.key_environ Scripted.host_kwargs = Ok Scripted.key_headers)
    by (vm_compute; reflexivity).
  assert (Hparse : parse_scope_key (Some "system.a") = Ok ("system", "a")) by reflexivity.
  repeat (split; [first [exact Hhdrs | exact Hparse | constructor | reflexivity]|]).
  exact (missing_value_fails_batch (host := Scripted.host) Scripted.key_environ
           Scripted.host_kwargs [] [Some "system.b"] (Some "system.a") []
           (Scripted.start [Ok Scripted.no_value; Scripted.found (JString "2")])
           (Scripted.start [Ok Scripted.no_value; Scripted.found (JString "2")])
           Scripted.key_headers "system" "a" Scripted.no_value
           [Scripted.found (JString "2")] [("name", JString "k")]
           (all_answered_nil _ _ _) Hhdrs Hparse eq_refl eq_refl eq_refl eq_refl).
Defined.

(** ** The examples of the specification, run on the scripted host *)

Example derived_base_url :
  api_url Scripted.host_kwargs = PStr "https://st2.example:9101/api" /\
  api_url ∅ = PStr "https://localhost/api" /\
  api_url {[ "api_url" := PStr "http://st2.domain.tld/st2/api" ]}
    = PStr "http://st2.domain.tld/st2/api".
Proof. repeat split; vm_compute; reflexivity. Qed.

Example token_before_api_key :
  make_headers Scripted.key_environ {[ "auth_token" := PStr "tok" ]}
    = Ok {[ "X-Auth-Token" := PStr "tok" ]} /\
  make_headers Scripted.key_environ ∅ = Ok {[ "St2-Api-Key" := PStr "xyz123" ]} /\
  make_headers {[ "ST2_AUTH_TOKEN" := "session"; "ST2_ACTION_AUTH_TOKEN" := "action" ]}
               {[ "api_key" := PStr "k" ]}
    = Ok {[ "X-Auth-Token" := PStr "action" ]}.
Proof. repeat split; vm_compute; reflexivity. Qed.

Example fail_fast_second_of_three :
  run (host := Scripted.host) Scripted.key_environ Scripted.host_kwargs true
      [Some "system.a"; Some "system.b"; Some "system.c"]
      (Scripted.start
         [Scripted.found (JString "1"); Ok Scripted.not_found; Scripted.found (JString "3")]) =
    (Raise (AnsibleError "Error locating 'system.b' in kv store. Error was 404 Error"),
     @mk_state Scripted.host [Scripted.found (JString "3")]
       [Scripted.request_for "system" "a"; Scripted.request_for "system" "b"] false).
Proof. vm_compute. reflexivity. Qed.

Example empty_term_in_batch :
  run (host := Scripted.host) Scripted.key_environ Scripted.host_kwargs true
      [Some "system.a"; None] (Scripted.start [Scripted.found (JString "1")]) =
    (Raise (AnsibleError
       "Error locating 'None' in kv store. Error was Error - The key can't be an empty string or null"),
     @mk_state Scripted.host [] [Scripted.request_for "system" "a"] false).
Proof. vm_compute. reflexivity. Qed.

Example no_requests_library :
  run (host := Scripted.host) Scripted.key_environ Scripted.host_kwargs false
      [Some "system.a"] (Scripted.start [Scripted.found (JString "1")]) =
    (Raise (AnsibleError no_requests_message), Scripted.start [Scripted.found (JString "1")]).
Proof. reflexivity. Qed.

(** * Further properties of run and parse_scope_key *)

Section Outcomes.
Context {host : Host}.
Variable environ : gmap string string.
Variable kwargs : gmap string pyval.

(** ** What an iteration that returns has seen *)

Lemma getitem_ok_inv data key v :
  getitem data key = Ok v -> exists members, data = JObject members /\ dict_get key members = Some v.
Proof.
  destruct data as [| | | | | |members]; cbn; try discriminate.
  destruct (dict_get key members) as [v'|] eqn:E; [|discriminate].
  intros [= ->]. exists members. split; [reflexivity|exact E].
Qed.

Lemma lookup_term_ok_inv t s v s' :
  lookup_term environ kwargs t s = (Ok v, s') -> answered environ kwargs t s v s'.
Proof.
  intros H.
  destruct (make_headers environ kwargs) as [hdrs|e] eqn:H1.
  2: { rewrite (lookup_term_no_headers _ _ _ _ _ H1) in H. discriminate. }
  destruct (parse_scope_key t) as [[scope key]|e] eqn:H2.
  2: { rewrite (lookup_term_no_parse _ _ _ _ _ _ H1 H2) in H. discriminate. }
  destruct (transport (mk_request (make_url kwargs scope key) hdrs (ssl_verify kwargs)) (world s))
    as [outcome w] eqn:H3.
  rewrite (lookup_term_request _ _ _ _ _ _ _ _ _ H1 H2 H3) in H.
  injection H as Hread <-. unfold read_value in Hread.
  destruct outcome as [response|e]; [|discriminate].
  destruct (raise_for_status response) as [[]|e] eqn:H4; [|discriminate].
  destruct (response_json response) as [data|e] eqn:H5; [|discriminate].
  destruct (getitem_ok_inv _ _ _ Hread) as (members & -> & H6).
  exists hdrs, scope, key, response, w, members. repeat split; assumption.
Qed.

(** An iteration that raises has sent nothing, or the request of its term. *)
Lemma lookup_term_raise_sent t s e s2 :
  lookup_term environ kwargs t s = (Raise e, s2) ->
  sent s2 = sent s \/ exists r, requested environ kwargs t r /\ sent s2 = sent s ++ [r].
Proof.
  intros H.
  destruct (make_headers environ kwargs) as [hdrs|e1] eqn:H1.
  2: { rewrite (lookup_term_no_headers _ _ _ _ _ H1) in H. injection H as _ <-. left. reflexivity. }
  destruct (parse_scope_key t) as [[scope key]|e2] eqn:H2.
  2: { rewrite (lookup_term_no_parse _ _ _ _ _ _ H1 H2) in H. injection H as _ <-.
       left. reflexivity. }
  destruct (transport (mk_request (make_url kwargs scope key) hdrs (ssl_verify kwargs)) (world s))
    as [outcome w] eqn:H3.
  rewrite (lookup_term_request _ _ _ _ _ _ _ _ _ H1 H2 H3) in H. injection H as _ <-.
  right. eexists. split; [|reflexivity]. exists hdrs, scope, key. repeat split; assumption.
Qed.

(** The switch for urllib3's warnings after one iteration. *)
Lemma lookup_term_warnings t s :
  warnings_disabled (snd (lookup_term environ kwargs t s)) =
    if truthy (ssl_verify kwargs) then warnings_disabled s else true.
Proof.
  destruct (make_headers environ kwargs) as [hdrs|e1] eqn:H1.
  2: { rewrite (lookup_term_no_headers _ _ _ _ _ H1). cbn.
       destruct (truthy (ssl_verify kwargs)); reflexivity. }
  destruct (parse_scope_key t) as [[scope key]|e2] eqn:H2.
  2: { rewrite (lookup_term_no_parse _ _ _ _ _ _ H1 H2). cbn.
       destruct (truthy (ssl_verify kwargs)); reflexivity. }
  destruct (transport (mk_request (make_url kwargs scope key) hdrs (ssl_verify kwargs)) (world s))
    as [outcome w] eqn:H3.
  rewrite (lookup_term_request _ _ _ _ _ _ _ _ _ H1 H2 H3). cbn.
  destruct (truthy (ssl_verify kwargs)); reflexivity.
Qed.

(** ** How the loop ends *)

Lemma for_terms_cases terms acc s :
  (exists values s',
      all_answered environ kwargs terms s values s' /\
      for_terms environ kwargs terms acc s = (Completed (acc ++ values), s')) \/
  (exists pre t post values s1 e s2,
      terms = pre ++ t :: post /\
      all_answered environ kwargs pre s values s1 /\
      lookup_term environ kwargs t s1 = (Raise e, s2) /\
      for_terms environ kwargs terms acc s = (Raised t e, s2)).
Proof.
  revert acc s. induction terms as [|t rest IH]; intros acc s.
  - left. exists [], s. split; [constructor|]. cbn. rewrite app_nil_r. reflexivity.
  - cbn [for_terms]. destruct (lookup_term environ kwargs t s) as [[v|e] s1] eqn:Ht.
    + pose proof (lookup_term_ok_inv _ _ _ _ Ht) as Ha.
      destruct (IH (acc ++ [v]) s1)
        as [(values & s' & Hall & Hfor)
           |(pre & t' & post & values & s1' & e & s2 & -> & Hall & Hl & Hfor)].
      * left. exists (v :: values), s'. split; [econstructor; eassumption|].
        rewrite Hfor, <- app_assoc. reflexivity.
      * right. exists (t :: pre), t', post, (v :: values), s1', e, s2.
        repeat split; [econstructor; eassumption|assumption|assumption].
    + right. exists [], t, rest, [], s, e, s1. repeat split; [constructor|assumption].
Qed.

(** The values gathered so far only go in front. *)
Lemma for_terms_acc terms acc s :
  for_terms environ kwargs terms acc s =
    match for_terms environ kwargs terms [] s with
    | (Completed values, s') => (Completed (acc ++ values), s')
    | (Raised t e, s') => (Raised t e, s')
    end.
Proof.
  revert acc s. induction terms as [|t rest IH]; intros acc s.
  - cbn. rewrite app_nil_r. reflexivity.
  - cbn [for_terms]. destruct (lookup_term environ kwargs t s) as [[v|e] s1]; [|reflexivity].
    rewrite (IH (acc ++ [v])), (IH ([] ++ [v])).
    destruct (for_terms environ kwargs rest [] s1) as [[values|t' e] s2]; [|reflexivity].
    rewrite <- app_assoc. reflexivity.
Qed.

Lemma all_answered_requests pre s values s1 :
  all_answered environ kwargs pre s values s1 ->
  exists new, sent s1 = sent s ++ new /\ Forall2 (requested environ kwargs) pre new.
Proof.
  induction 1 as [s|t terms v values s s1 s2 Ht _ (new & Hsent & Hall)].
  - exists []. split; [rewrite app_nil_r; reflexivity|constructor].
  - destruct Ht as (hdrs & scope & key & response & w & members & H1 & H2 & _ & _ & _ & _ & ->).
    exists (mk_request (make_url kwargs scope key) hdrs (ssl_verify kwargs) :: new). split.
    + rewrite Hsent. cbn. rewrite <- app_assoc. reflexivity.
    + constructor; [|exact Hall]. exists hdrs, scope, key. repeat split; assumption.
Qed.

Lemma for_terms_requests terms acc s :
  exists (n : nat) (new : list request),
    sent (snd (for_terms environ kwargs terms acc s)) = sent s ++ new /\
    Forall2 (requested environ kwargs) (take n terms) new.
Proof.
  destruct (for_terms_cases terms acc s)
    as [(values & s' & Hall & ->)
       |(pre & t & post & values & s1 & e & s2 & -> & Hall & Hl & ->)]; cbn [snd].
  - destruct (all_answered_requests _ _ _ _ Hall) as (new & Hsent & Hreq).
    exists (length terms), new. rewrite firstn_all. split; assumption.
  - destruct (all_answered_requests _ _ _ _ Hall) as (new & Hsent & Hreq).
    destruct (lookup_term_raise_sent _ _ _ _ Hl) as [Hs2|(r & Hr & Hs2)].
    + exists (length pre), new. rewrite take_app_length. split; [congruence|assumption].
    + exists (length (pre ++ [t])), (new ++ [r]).
      replace (pre ++ t :: post) with ((pre ++ [t]) ++ post)
        by (rewrite <- app_assoc; reflexivity).
      rewrite take_app_length. split.
      * rewrite Hs2, Hsent, <- app_assoc. reflexivity.
      * apply Forall2_app; [assumption|]. constructor; [assumption|constructor].
Qed.

Lemma for_terms_warnings t rest acc s :
  warnings_disabled (snd (for_terms environ kwargs (t :: rest) acc s)) =
    if truthy (ssl_verify kwargs) then warnings_disabled s else true.
Proof.
  revert t acc s. induction rest as [|t' rest IH]; intros t acc s.
  - cbn [for_terms]. pose proof (lookup_term_warnings t s) as Hw.
    destruct (lookup_term environ kwargs t s) as [[v|e] s1]; exact Hw.
  - cbn [for_terms]. pose proof (lookup_term_warnings t s) as Hw.
    destruct (lookup_term environ kwargs t s) as [[v|e] s1]; [|exact Hw].
    specialize (IH t' (acc ++ [v]) s1). cbn [for_terms] in IH. rewrite IH.
    cbn [snd] in Hw. rewrite Hw. destruct (truthy (ssl_verify kwargs)); reflexivity.
Qed.

(** ** Outcomes of a batch *)

(** X1.  run returns a list only when every term of the batch was answered:
    for each term the credentials resolved, the term parsed, the request got
    a response that raise_for_status accepted, and the body decoded to an
    object with a "value" member, the values being those members in order. *)
Theorem run_returns_only_when_all_answered
    (terms : list term) (values : list json) (s s' : state) :
  run environ kwargs true terms s = (Ok values, s') ->
  all_answered environ kwargs terms s values s'.
Proof.
  unfold run. cbn [negb]. intros H.
  destruct (for_terms_cases terms [] s)
    as [(vs & s1 & Hall & Hfor)|(pre & t & post & vs & s1 & e & s2 & _ & _ & _ & Hfor)];
    rewrite Hfor in H; [|discriminate].
  injection H as <- <-. exact Hall.
Qed.

(** X2.  A batch ends in one of two ways: every term is answered and run
    returns their values; or the terms before some term [t] are answered,
    the iteration for [t] raises [e], and run raises the AnsibleError that
    names [t] and carries the text of [e].  It never returns a part of the
    values and never lets another exception through. *)
Theorem run_outcome_cases (terms : list term) (s : state) :
  (exists values s',
      all_answered environ kwargs terms s values s' /\
      run environ kwargs true terms s = (Ok values, s')) \/
  (exists pre t post values s1 e s2,
      terms = pre ++ t :: post /\
      all_answered environ kwargs pre s values s1 /\
      lookup_term environ kwargs t s1 = (Raise e, s2) /\
      run environ kwargs true terms s =
        (Raise (AnsibleError
                  ("Error locating '" +:+ str (term_val t) +:+ "' in kv store. Error was "
                   +:+ str_exn e)), s2)).
Proof.
  unfold run. cbn [negb].
  destruct (for_terms_cases terms [] s)
    as [(vs & s1 & Hall & Hfor)|(pre & t & post & vs & s1 & e & s2 & Heq & Hall & Hl & Hfor)];
    rewrite Hfor.
  - left. exists vs, s1. split; [exact Hall|reflexivity].
  - right. exists pre, t, post, vs, s1, e, s2. repeat split; assumption.
Qed.

(** X3.  A term that is None or the empty string, reached with credentials
    that resolve, fails the batch with the error for an empty or null key,
    reported for that term; no request is issued for it or for a later
    term. *)
Theorem invalid_term_fails_batch
    (pre post : list term) (t : term) (values : list json) (s s1 : state)
    (hdrs : gmap string pyval) :
  all_answered environ kwargs pre s values s1 ->
  make_headers environ kwargs = Ok hdrs ->
  t = None \/ t = Some EmptyString ->
  run environ kwargs true (pre ++ t :: post) s =
    (Raise (AnsibleError
              ("Error locating '" +:+ str (term_val t) +:+ "' in kv store. Error was "
               +:+ empty_term_message)),
     before_request kwargs s1) /\
  sent (before_request kwargs s1) = sent s1.
Proof.
  intros Hpre Hhdrs Ht. split; [|reflexivity].
  assert (Hparse : parse_scope_key t = Raise (AnsibleError empty_term_message))
    by (destruct Ht as [->| ->]; reflexivity).
  apply (run_fails_at environ kwargs pre t post values s s1
           (AnsibleError empty_term_message) _ Hpre).
  apply (lookup_term_no_parse environ kwargs t s1 hdrs _ Hhdrs Hparse).
Qed.

(** X4.  When requests.get itself raises for a term (no response), the batch
    fails with the error that names the term and carries the text of the
    exception; the request counts as issued and no later one goes out. *)
Theorem transport_error_fails_batch
    (pre post : list term) (t : term) (values : list json) (s s1 : state)
    (hdrs : gmap string pyval) (scope key : string) (w : World) (e : exn) :
  all_answered environ kwargs pre s values s1 ->
  make_headers environ kwargs = Ok hdrs ->
  parse_scope_key t = Ok (scope, key) ->
  transport (mk_request (make_url kwargs scope key) hdrs (ssl_verify kwargs)) (world s1)
    = (Raise e, w) ->
  run environ kwargs true (pre ++ t :: post) s =
    (Raise (AnsibleError
              ("Error locating '" +:+ str (term_val t) +:+ "' in kv store. Error was "
               +:+ str_exn e)),
     after_request kwargs s1 (mk_request (make_url kwargs scope key) hdrs (ssl_verify kwargs)) w).
Proof.
  intros Hpre Hhdrs Hparse Hget.
  apply (run_fails_at environ kwargs pre t post values s s1 _ _ Hpre).
  rewrite (lookup_term_request _ _ _ _ _ _ _ _ _ Hhdrs Hparse Hget). reflexivity.
Qed.

(** X5.  When the response has an accepted status but response.json()
    raises, the batch fails with the error that names the term and carries
    the text of that exception. *)
Theorem undecodable_body_fails_batch
    (pre post : list term) (t : term) (values : list json) (s s1 : state)
    (hdrs : gmap string pyval) (scope key : string) (response : Response) (w : World) (e : exn) :
  all_answered environ kwargs pre s values s1 ->
  make_headers environ kwargs = Ok hdrs ->
  parse_scope_key t = Ok (scope, key) ->
  transport (mk_request (make_url kwargs scope key) hdrs (ssl_verify kwargs)) (world s1)
    = (Ok response, w) ->
  raise_for_status response = Ok tt ->
  response_json response = Raise e ->
  run environ kwargs true (pre ++ t :: post) s =
    (Raise (AnsibleError
              ("Error locating '" +:+ str (term_val t) +:+ "' in kv store. Error was "
               +:+ str_exn e)),
     after_request kwargs s1 (mk_request (make_url kwargs scope key) hdrs (ssl_verify kwargs)) w).
Proof.
  intros Hpre Hhdrs Hparse Hget Hstatus Hjson.
  apply (run_fails_at environ kwargs pre t post values s s1 _ _ Hpre).
  rewrite (lookup_term_request _ _ _ _ _ _ _ _ _ Hhdrs Hparse Hget).
  unfold read_value. rewrite Hstatus, Hjson. reflexivity.
Qed.

(** X6.  When the body decodes to JSON that is no object (an array, a
    string, a number, a boolean, null), subscripting it raises a TypeError
    and the batch fails with the error that names the term. *)
Theorem non_object_body_fails_batch
    (pre post : list term) (t : term) (values : list json) (s s1 : state)
    (hdrs : gmap string pyval) (scope key : string) (response : Response) (w : World)
    (data : json) :
  all_answered environ kwargs pre s values s1 ->
  make_headers environ kwargs = Ok hdrs ->
  parse_scope_key t = Ok (scope, key) ->
  transport (mk_request (make_url kwargs scope key) hdrs (ssl_verify kwargs)) (world s1)
    = (Ok response, w) ->
  raise_for_status response = Ok tt ->
  response_json response = Ok data ->
  (forall members, data <> JObject members) ->
  run environ kwargs true (pre ++ t :: post) s =
    (Raise (AnsibleError
              ("Error locating '" +:+ str (term_val t) +:+ "' in kv store. Error was "
               +:+ not_subscriptable data)),
     after_request kwargs s1 (mk_request (make_url kwargs scope key) hdrs (ssl_verify kwargs)) w).
Proof.
  intros Hpre Hhdrs Hparse Hget Hstatus Hjson Hdata.
  apply (run_fails_at environ kwargs pre t post values s s1
           (TypeError (not_subscriptable data)) _ Hpre).
  rewrite (lookup_term_request _ _ _ _ _ _ _ _ _ Hhdrs Hparse Hget).
  unfold read_value. rewrite Hstatus, Hjson.
  destruct data as [| | | | | |members]; try reflexivity.
  destruct (Hdata members eq_refl).
Qed.

(** X12.  A batch can be cut after terms that are all answered: running the
    whole batch gives the values of the first part followed by what running
    the rest from the state reached gives, and the same error if the rest
    fails. *)
Theorem run_app
    (pre rest : list term) (values : list json) (s s1 : state) :
  all_answered environ kwargs pre s values s1 ->
  run environ kwargs true (pre ++ rest) s =
    match run environ kwargs true rest s1 with
    | (Ok more, s2) => (Ok (values ++ more), s2)
    | (Raise e, s2) => (Raise e, s2)
    end.
Proof.
  intros Hpre. unfold run. cbn [negb].
  rewrite (for_terms_answered environ kwargs pre rest [] s values s1 Hpre).
  rewrite (for_terms_acc rest ([] ++ values) s1).
  destruct (for_terms environ kwargs rest [] s1) as [[more|t e] s2]; reflexivity.
Qed.

(** ** Requests of a batch *)


(** X8.  The requests run adds to those already sent are, in order, the
    requests of the first n terms of the batch for some n: each has the URL
    built from its term, the headers of the call's credential and the
    ssl_verify flag; requests are never reordered, repeated or dropped. *)
Theorem requests_follow_the_terms
    (HAS_REQUESTS : bool) (terms : list term) (s : state) :
  exists (n : nat) (new : list request),
    sent (snd (run environ kwargs HAS_REQUESTS terms s)) = sent s ++ new /\
    Forall2 (requested environ kwargs) (take n terms) new.
Proof.
  unfold run. destruct HAS_REQUESTS; cbn [negb].
  2: { exists 0%nat, []. cbn. split; [rewrite app_nil_r; reflexivity|constructor]. }
  destruct (for_terms_requests terms [] s) as (n & new & Hsent & Hreq).
  exists n, new. split; [|exact Hreq].
  destruct (for_terms environ kwargs terms [] s) as [[vs|t e] s1]; exact Hsent.
Qed.

(** X11.  After run on a batch that is not empty, urllib3's warnings are
    disabled when ssl_verify is false (even if the batch failed, and even
    for missing credentials), and are as before when ssl_verify is true or
    not given. *)
Theorem warnings_switch_after_run (t : term) (rest : list term) (s : state) :
  warnings_disabled (snd (run environ kwargs true (t :: rest) s)) =
    if truthy (kwargs_get kwargs "ssl_verify" (PBool true)) then warnings_disabled s else true.
Proof.
  pose proof (for_terms_warnings t rest [] s) as Hw.
  unfold run. cbn [negb].
  destruct (for_terms environ kwargs (t :: rest) [] s) as [[vs|t' e] s1]; exact Hw.
Qed.

End Outcomes.

(** ** Credentials that are sent *)

Lemma first_not_empty_some sources c :
  first_not_empty sources = Some c -> In c sources /\ truthy (credential_value c) = true.
Proof.
  induction sources as [|c' later IH]; cbn; [discriminate|].
  destruct (truthy (credential_value c')) eqn:E.
  - intros [= ->]. split; [left; reflexivity|exact E].
  - intros H. destruct (IH H) as [Hin Ht]. split; [right; exact Hin|exact Ht].
Qed.

Lemma first_not_empty_none sources :
  first_not_empty sources = None ->
  Forall (fun c => truthy (credential_value c) = false) sources.
Proof.
  induction sources as [|c' later IH]; cbn; [constructor|].
  destruct (truthy (credential_value c')) eqn:E; [discriminate|].
  intros H. constructor; [exact E|exact (IH H)].
Qed.

(** X9.  The headers of a call hold exactly one entry, named X-Auth-Token or
    St2-Api-Key, and its value is never empty; the call is refused for
    missing auth information only when the auth_token argument,
    ST2_ACTION_AUTH_TOKEN, ST2_AUTH_TOKEN, the api_key argument and
    ST2_API_KEY are all missing or empty. *)
Theorem headers_hold_one_nonempty_credential
    (environ : gmap string string) (kwargs : gmap string pyval) :
  match make_headers environ kwargs with
  | Ok hdrs =>
      exists name value,
        hdrs = {[ name := value ]} /\
        (name = "X-Auth-Token" \/ name = "St2-Api-Key") /\
        truthy value = true
  | Raise e =>
      e = AnsibleError no_auth_message /\
      truthy (kwargs_get kwargs "auth_token" PNone) = false /\
      truthy (environ_get environ "ST2_ACTION_AUTH_TOKEN") = false /\
      truthy (environ_get environ "ST2_AUTH_TOKEN") = false /\
      truthy (kwargs_get kwargs "api_key" PNone) = false /\
      truthy (environ_get environ "ST2_API_KEY") = false
  end.
Proof.
  rewrite make_headers_by_priority. unfold resolved_credential.
  destruct (first_not_empty (credential_sources environ kwargs)) as [c|] eqn:E.
  - destruct (first_not_empty_some _ _ E) as [_ Ht].
    destruct c as [value|value]; cbn in *.
    + exists "X-Auth-Token", value. repeat split; [left; reflexivity|exact Ht].
    + exists "St2-Api-Key", value. repeat split; [right; reflexivity|exact Ht].
  - pose proof (first_not_empty_none _ E) as Hall. unfold credential_sources in Hall.
    repeat (apply Forall_cons in Hall; destruct Hall as [? Hall]).
    cbn in *. repeat split; assumption.
Qed.

(** ** The term behind a parse *)

(** X10.  Whatever parse_scope_key returns comes from a term that is a
    string and not empty; the scope it returns holds no '.'; a term with a
    '.' is the scope, a '.', and the key, so that it can be rebuilt from the
    pair; a term without one is the key, under the scope "system". *)
Theorem parse_scope_key_inverse (t : term) (scope key : string) :
  parse_scope_key t = Ok (scope, key) ->
  exists s,
    t = Some s /\ s <> EmptyString /\ contains "." scope = false /\
    if contains "." s then s = scope +:+ "." +:+ key
    else scope = "system" /\ key = s.
Proof.
  intros H. destruct t as [s|]; [|discriminate].
  exists s. destruct (decide (s = EmptyString)) as [->|Hne]; [discriminate|].
  split; [reflexivity|]. split; [exact Hne|].
  destruct (contains "." s) eqn:Hdot.
  - destruct (first_sep_cases _ _ Hdot) as (a & b & Ha & ->).
    change (a +:+ String "." b) with (a +:+ "." +:+ b) in H.
    rewrite (parse_scope_key_dotted a b Ha) in H. injection H as <- <-.
    split; [exact Ha|reflexivity].
  - rewrite (parse_scope_key_bare s Hne Hdot) in H. injection H as <- <-.
    split; [reflexivity|]. split; reflexivity.
Qed.

Lemma parse_scope_key_inverse_witness :
  parse_scope_key (Some "system.my.coolkey") = Ok ("system", "my.coolkey") /\
  exists s,
    Some "system.my.coolkey" = Some s /\ s <> EmptyString /\ contains "." "system" = false /\
    if contains "." s then s = "system" +:+ "." +:+ "my.coolkey"
    else "system" = "system" /\ "my.coolkey" = s.
Proof.
  assert (H : parse_scope_key (Some "system.my.coolkey") = Ok ("system", "my.coolkey"))
    by reflexivity.
  split; [exact H|].
  exact (parse_scope_key_inverse (Some "system.my.coolkey") "system" "my.coolkey" H).
Defined.

(** ** The further properties on the scripted host *)

Lemma run_returns_only_when_all_answered_witness :
  let s := Scripted.start [Scripted.found (JString "1")] in
  let s' := @mk_state Scripted.host [] [Scripted.request_for "system" "a"] false in
  run (host := Scripted.host) Scripted.key_environ Scripted.host_kwargs true
      [Some "system.a"] s = (Ok [JString "1"], s') /\
  all_answered (host := Scripted.host) Scripted.key_environ Scripted.host_kwargs
    [Some "system.a"] s [JString "1"] s'.
Proof.
  cbv zeta.
  assert (H : run (host := Scripted.host) Scripted.key_environ Scripted.host_kwargs true
                [Some "system.a"] (Scripted.start [Scripted.found (JString "1")])
              = (Ok [JString "1"],
                 @mk_state Scripted.host [] [Scripted.request_for "system" "a"] false))
    by (vm_compute; reflexivity).
  split; [exact H|].
  exact (run_returns_only_when_all_answered (host := Scripted.host) _ _ _ _ _ _ H).
Defined.

Lemma invalid_term_fails_batch_witness :
  let s := Scripted.start [Scripted.found (JString "1"); Scripted.found (JString "3")] in
  let s1 := @mk_state Scripted.host [Scripted.found (JString "3")]
              [Scripted.request_for "system" "a"] false in
  all_answered (host := Scripted.host) Scripted.key_environ Scripted.host_kwargs
    [Some "system.a"] s [JString "1"] s1 /\
  make_headers Scripted.key_environ Scripted.host_kwargs = Ok Scripted.key_headers /\
  ((None : term) = None \/ (None : term) = Some EmptyString) /\
  run (host := Scripted.host) Scripted.key_environ Scripted.host_kwargs true
      ([Some "system.a"] ++ None :: [Some "system.c"]) s =
    (Raise (AnsibleError
       "Error locating 'None' in kv store. Error was Error - The key can't be an empty string or null"),
     before_request Scripted.host_kwargs s1) /\
  sent (before_request Scripted.host_kwargs s1) = sent s1.
Proof.
  cbv zeta.
  assert (Hpre : all_answered (host := Scripted.host) Scripted.key_environ Scripted.host_kwargs
            [Some "system.a"]
            (Scripted.start [Scripted.found (JString "1"); Scripted.found (JString "3")])
            [JString "1"]
            (@mk_state Scripted.host [Scripted.found (JString "3")]
               [Scripted.request_for "system" "a"] false)).
  { eapply all_answered_cons; [apply (scripted_answered "system" "a"); reflexivity|].
    apply all_answered_nil. }
  assert (Hhdrs : make_headers Scripted.key_environ Scripted.host_kwargs = Ok Scripted.key_headers)
    by (vm_compute; reflexivity).
  assert (Ht : (None : term) = None \/ (None : term) = Some EmptyString) by (left; reflexivity).
  split; [exact Hpre|]. split; [exact Hhdrs|]. split; [exact Ht|].
  exact (invalid_term_fails_batch (host := Scripted.host) Scripted.key_environ
           Scripted.host_kwargs [Some "system.a"] [Some "system.c"] None [JString "1"] _ _
           Scripted.key_headers Hpre Hhdrs Ht).
Defined.

Lemma transport_error_fails_batch_witness :
  let s := Scripted.start [] in
  let req := mk_request (make_url Scripted.host_kwargs "system" "a") Scripted.key_headers
               (ssl_verify Scripted.host_kwargs) in
  all_answered (host := Scripted.host) Scripted.key_environ Scripted.host_kwargs [] s [] s /\
  make_headers Scripted.key_environ Scripted.host_kwargs = Ok Scripted.key_headers /\
  parse_scope_key (Some "system.a") = Ok ("system", "a") /\
  transport (Host := Scripted.host) req (world s) = (Raise Scripted.refused, []) /\
  run (host := Scripted.host) Scripted.key_environ Scripted.host_kwargs true
      ([] ++ Some "system.a" :: [Some "system.b"]) s =
    (Raise (AnsibleError "Error locating 'system.a' in kv store. Error was connection refused"),
     after_request Scripted.host_kwargs s req []).
Proof.
  cbv zeta.
  assert (Hhdrs : make_headers Scripted.key_environ Scripted.host_kwargs = Ok Scripted.key_headers)
    by (vm_compute; reflexivity).
  assert (Hparse : parse_scope_key (Some "system.a") = Ok ("system", "a")) by reflexivity.
  repeat (split; [first [exact Hhdrs | exact Hparse | constructor | reflexivity]|]).
  exact (transport_error_fails_batch (host := Scripted.host) Scripted.key_environ
           Scripted.host_kwargs [] [Some "system.b"] (Some "system.a") []
           (Scripted.start []) (Scripted.start [])
           Scripted.key_headers "system" "a" [] Scripted.refused
           (all_answered_nil _ _ _) Hhdrs Hparse eq_refl).
Defined.

Lemma undecodable_body_fails_batch_witness :
  let s := Scripted.start [Ok Scripted.bad_json] in
  let req := mk_request (make_url Scripted.host_kwargs "system" "a") Scripted.key_headers
               (ssl_verify Scripted.host_kwargs) in
  all_answered (host := Scripted.host) Scripted.key_environ Scripted.host_kwargs [] s [] s /\
  make_headers Scripted.key_environ Scripted.host_kwargs = Ok Scripted.key_headers /\
  parse_scope_key (Some "system.a") = Ok ("system", "a") /\
  transport (Host := Scripted.host) req (world s) = (Ok Scripted.bad_json, []) /\
  raise_for_status (Host := Scripted.host) Scripted.bad_json = Ok tt /\
  response_json (Host := Scripted.host) Scripted.bad_json
    = Raise (LibraryError "JSONDecodeError" "Expecting value") /\
  run (host := Scripted.host) Scripted.key_environ Scripted.host_kwargs true
      ([] ++ Some "system.a" :: []) s =
    (Raise (AnsibleError "Error locating 'system.a' in kv store. Error was Expecting value"),
     after_request Scripted.host_kwargs s req []).
Proof.
  cbv zeta.
  assert (Hhdrs : make_headers Scripted.key_environ Scripted.host_kwargs = Ok Scripted.key_headers)
    by (vm_compute; reflexivity).
  assert (Hparse : parse_scope_key (Some "system.a") = Ok ("system", "a")) by reflexivity.
  repeat (split; [first [exact Hhdrs | exact Hparse | constructor | reflexivity]|]).
  exact (undecodable_body_fails_batch (host := Scripted.host) Scripted.key_environ
           Scripted.host_kwargs [] [] (Some "system.a") []
           (Scripted.start [Ok Scripted.bad_json]) (Scripted.start [Ok Scripted.bad_json])
           Scripted.key_headers "system" "a" Scripted.bad_json []
           (LibraryError "JSONDecodeError" "Expecting value")
           (all_answered_nil _ _ _) Hhdrs Hparse eq_refl eq_refl eq_refl).
Defined.

Lemma non_object_body_fails_batch_witness :
  let s := Scripted.start [Ok Scripted.list_body] in
  let req := mk_request (make_url Scripted.host_kwargs "system" "a") Scripted.key_headers
               (ssl_verify Scripted.host_kwargs) in
  all_answered (host := Scripted.host) Scripted.key_environ Scripted.host_kwargs [] s [] s /\
  make_headers Scripted.key_environ Scripted.host_kwargs = Ok Scripted.key_headers /\
  parse_scope_key (Some "system.a") = Ok ("system", "a") /\
  transport (Host := Scripted.host) req (world s) = (Ok Scripted.list_body, []) /\
  raise_for_status (Host := Scripted.host) Scripted.list_body = Ok tt /\
  response_json (Host := Scripted.host) Scripted.list_body = Ok (JArray [JString "1"]) /\
  (forall members, JArray [JString "1"] <> JObject members) /\
  run (host := Scripted.host) Scripted.key_environ Scripted.host_kwargs true
      ([] ++ Some "system.a" :: []) s =
    (Raise (AnsibleError
       "Error locating 'system.a' in kv store. Error was object is not subscriptable"),
     after_request Scripted.host_kwargs s req []).
Proof.
  cbv zeta.
  assert (Hhdrs : make_headers Scripted.key_environ Scripted.host_kwargs = Ok Scripted.key_headers)
    by (vm_compute; reflexivity).
  assert (Hparse : parse_scope_key (Some "system.a") = Ok ("system", "a")) by reflexivity.
  assert (Hdata : forall members, JArray [JString "1"] <> JObject members)
    by (intros members; discriminate).
  repeat (split; [first [exact Hhdrs | exact Hparse | exact Hdata | constructor | reflexivity]|]).
  exact (non_object_body_fails_batch (host := Scripted.host) Scripted.key_environ
           Scripted.host_kwargs [] [] (Some "system.a") []
           (Scripted.start [Ok Scripted.list_body]) (Scripted.start [Ok Scripted.list_body])
           Scripted.key_headers "system" "a" Scripted.list_body [] (JArray [JString "1"])
           (all_answered_nil _ _ _) Hhdrs Hparse eq_refl eq_refl eq_refl Hdata).
Defined.

Lemma run_app_witness :
  let s := Scripted.start [Scripted.found (JString "1"); Scripted.found (JInt 2)] in
  let s1 := @mk_state Scripted.host [Scripted.found (JInt 2)]
              [Scripted.request_for "system" "a"] false in
  all_answered (host := Scripted.host) Scripted.key_environ Scripted.host_kwargs
    [Some "system.a"] s [JString "1"] s1 /\
  run (host := Scripted.host) Scripted.key_environ Scripted.host_kwargs true
      ([Some "system.a"] ++ [Some "user.b"]) s =
    match run (host := Scripted.host) Scripted.key_environ Scripted.host_kwargs true
            [Some "user.b"] s1 with
    | (Ok more, s2) => (Ok ([JString "1"] ++ more), s2)
    | (Raise e, s2) => (Raise e, s2)
    end.
Proof.
  cbv zeta.
  assert (Hpre : all_answered (host := Scripted.host) Scripted.key_environ Scripted.host_kwargs
            [Some "system.a"]
            (Scripted.start [Scripted.found (JString "1"); Scripted.found (JInt 2)])
            [JString "1"]
            (@mk_state Scripted.host [Scripted.found (JInt 2)]
               [Scripted.request_for "system" "a"] false)).
  { eapply all_answered_cons; [apply (scripted_answered "system" "a"); reflexivity|].
    apply all_answered_nil. }
  split; [exact Hpre|].
  exact (run_app (host := Scripted.host) Scripted.key_environ Scripted.host_kwargs
           [Some "system.a"] [Some "user.b"] [JString "1"] _ _ Hpre).
Defined.

Example insecure_batch_disables_warnings :
  run (host := Scripted.host) ∅ Scripted.insecure_kwargs true
      [Some "system.a"] (Scripted.start [Ok Scripted.not_found]) =
    (Raise (AnsibleError "Error locating 'system.a' in kv store. Error was 404 Error"),
     @mk_state Scripted.host []
       [mk_request "https://localhost/api/v1/keys/a?scope=system" Scripted.key_headers
          (PBool false)] true).
Proof. vm_compute. reflexivity. Qed.

(** ** What run depends on *)

Lemma lookup_term_reads_only_its_options
    {host : Host} (environ environ' : gmap string string) (kwargs kwargs' : gmap string pyval)
    (t : term) (s : state) :
  Forall (fun name => kwargs !! name = kwargs' !! name) options_read ->
  Forall (fun name => environ !! name = environ' !! name) variables_read ->
  lookup_term environ kwargs t s = lookup_term environ' kwargs' t s.
Proof.
  intros Hk He. rewrite Forall_forall in Hk. rewrite Forall_forall in He.
  assert (K1 : kwargs !! "api_url" = kwargs' !! "api_url") by (apply Hk; set_solver).
  assert (K2 : kwargs !! "hostname" = kwargs' !! "hostname") by (apply Hk; set_solver).
  assert (K3 : kwargs !! "port" = kwargs' !! "port") by (apply Hk; set_solver).
  assert (K4 : kwargs !! "ssl_verify" = kwargs' !! "ssl_verify") by (apply Hk; set_solver).
  assert (K5 : kwargs !! "auth_token" = kwargs' !! "auth_token") by (apply Hk; set_solver).
  assert (K6 : kwargs !! "api_key" = kwargs' !! "api_key") by (apply Hk; set_solver).
  assert (K7 : kwargs !! "decrypt" = kwargs' !! "decrypt") by (apply Hk; set_solver).
  assert (K8 : kwargs !! "user" = kwargs' !! "user") by (apply Hk; set_solver).
  assert (E1 : environ !! "ST2_ACTION_AUTH_TOKEN" = environ' !! "ST2_ACTION_AUTH_TOKEN")
    by (apply He; set_solver).
  assert (E2 : environ !! "ST2_AUTH_TOKEN" = environ' !! "ST2_AUTH_TOKEN")
    by (apply He; set_solver).
  assert (E3 : environ !! "ST2_API_KEY" = environ' !! "ST2_API_KEY") by (apply He; set_solver).
  unfold lookup_term, make_headers, make_url, auth_token, api_key, api_url, ssl_verify,
    decrypt, user, kwargs_get, environ_get.
  rewrite K1, K2, K3, K4, K5, K6, K7, K8, E1, E2, E3. reflexivity.
Qed.

(** X13.  run reads eight options of its keyword arguments (api_url,
    hostname, port, ssl_verify, auth_token, api_key, decrypt, user) and
    three environment variables (ST2_ACTION_AUTH_TOKEN, ST2_AUTH_TOKEN,
    ST2_API_KEY) and nothing else of either: two calls that agree on these
    give the same result, the same requests and the same state. *)
Theorem run_reads_only_its_options
    {host : Host} (environ environ' : gmap string string) (kwargs kwargs' : gmap string pyval)
    (HAS_REQUESTS : bool) (terms : list term) (s : state) :
  Forall (fun name => kwargs !! name = kwargs' !! name) options_read ->
  Forall (fun name => environ !! name = environ' !! name) variables_read ->
  run environ kwargs HAS_REQUESTS terms s = run environ' kwargs' HAS_REQUESTS terms s.
Proof.
  intros Hk He.
  assert (Hfor : forall acc s0,
             for_terms environ kwargs terms acc s0 = for_terms environ' kwargs' terms acc s0).
  { induction terms as [|t rest IH]; intros acc s0; [reflexivity|].
    cbn [for_terms].
    rewrite (lookup_term_reads_only_its_options environ environ' kwargs kwargs' t s0 Hk He).
    destruct (lookup_term environ' kwargs' t s0) as [[v|e] s1]; [apply IH|reflexivity]. }
  unfold run. rewrite Hfor. reflexivity.
Qed.

Lemma run_reads_only_its_options_witness :
  Forall (fun name => Scripted.host_kwargs !! name = Scripted.noisy_kwargs !! name)
         options_read /\
  Forall (fun name => Scripted.key_environ !! name = Scripted.noisy_environ !! name)
         variables_read /\
  run (host := Scripted.host) Scripted.key_environ Scripted.host_kwargs true
      [Some "system.a"] (Scripted.start [Scripted.found (JString "1")]) =
  run (host := Scripted.host) Scripted.noisy_environ Scripted.noisy_kwargs true
      [Some "system.a"] (Scripted.start [Scripted.found (JString "1")]).
Proof.
  assert (Hk : Forall (fun name => Scripted.host_kwargs !! name = Scripted.noisy_kwargs !! name)
                 options_read)
    by (repeat constructor).
  assert (He : Forall (fun name => Scripted.key_environ !! name = Scripted.noisy_environ !! name)
                 variables_read)
    by (repeat constructor).
  split; [exact Hk|]. split; [exact He|].
  exact (run_reads_only_its_options (host := Scripted.host) _ _ _ _ true
           [Some "system.a"] (Scripted.start [Scripted.found (JString "1")]) Hk He).
Defined.

(** ** The canonical form of a term *)

Lemma parse_scope_key_scope (t : term) (scope key : string) :
  parse_scope_key t = Ok (scope, key) -> contains "." scope = false.
Proof.
  intros H. destruct t as [s|]; [|discriminate].
  destruct (decide (s = EmptyString)) as [->|Hne]; [discriminate|].
  destruct (contains "." s) eqn:Hdot.
  - destruct (first_sep_cases _ _ Hdot) as (a & b & Ha & ->).
    change (a +:+ String "." b) with (a +:+ "." +:+ b) in H.
    rewrite (parse_scope_key_dotted a b Ha) in H. injection H as <- <-. exact Ha.
  - rewrite (parse_scope_key_bare s Hne Hdot) in H. injection H as <- <-. reflexivity.
Qed.

(** X14.  Writing the parsed scope, a '.', and the parsed key gives a term
    that parses to the same pair: a bare key [k] and "system.k" name the
    same entry, and parsing the rebuilt term changes nothing. *)
Theorem parse_scope_key_canonical (t : term) (scope key : string) :
  parse_scope_key t = Ok (scope, key) ->
  parse_scope_key (Some (scope +:+ "." +:+ key)) = Ok (scope, key).
Proof.
  intros H. apply parse_scope_key_dotted. exact (parse_scope_key_scope t scope key H).
Qed.

Lemma parse_scope_key_canonical_witness :
  parse_scope_key (Some "my_key") = Ok ("system", "my_key") /\
  parse_scope_key (Some "system.my_key") = Ok ("system", "my_key").
Proof.
  assert (H : parse_scope_key (Some "my_key") = Ok ("system", "my_key")) by reflexivity.
  split; [exact H|].
  exact (parse_scope_key_canonical (Some "my_key") "system" "my_key" H).
Defined.
